(** * chaudit-unattendedupdateschecker: the two checks of [main.py]

    A shallow embedding of [UnattendedUpdatesChecker.check_unattended_upgrades]
    and [UnattendedUpdatesChecker.audit_config_file].  Python text is a
    [string]; the needles searched for are ASCII, so containment over the
    UTF-8 bytes coincides with containment over code points.  The host
    (package database, file system), the imported libraries ([yaml],
    [json], [jsonschema]) and the standard output stream are explicit
    arguments. *)

From Stdlib Require Import Bool Ascii String List ZArith Lia.
Import ListNotations.

Local Open Scope string_scope.
Local Open Scope Z_scope.

(** ** Python strings *)

Module Text.

(** The double quote character, for literals that contain it. *)
Definition dquote : string := String (ascii_of_nat 34) EmptyString.

(** [needle in hay]: some position of [hay] starts with [needle]. *)
Fixpoint contains (needle hay : string) : bool :=
  String.prefix needle hay
  || match hay with
     | EmptyString => false
     | String _ rest => contains needle rest
     end.

(** [s[n:]] for [n <= len(s)]. *)
Fixpoint drop (n : nat) (s : string) : string :=
  match n, s with
  | O, _ => s
  | S _, EmptyString => EmptyString
  | S k, String _ rest => drop k rest
  end.

(** [s.endswith(suffix)]: [suffix] is no longer than [s] and the last
    [len(suffix)] characters of [s] are [suffix]. *)
Definition endswith (s suffix : string) : bool :=
  (String.length suffix <=? String.length s)%nat
  && String.eqb (drop (String.length s - String.length suffix) s) suffix.

(** ASCII lower-casing, used to say "equal up to letter case". *)
Definition lower_ascii (c : ascii) : ascii :=
  let n := nat_of_ascii c in
  if ((65 <=? n) && (n <=? 90))%nat then ascii_of_nat (n + 32) else c.

Fixpoint lower (s : string) : string :=
  match s with
  | EmptyString => EmptyString
  | String c rest => String (lower_ascii c) (lower rest)
  end.

End Text.

(** ** Exceptions, outcomes and the logger *)

(** The part of the [Exception] hierarchy the handlers tell apart.  Each
    value carries the text [str(e)] builds; a [ValidationError] also
    carries [e.message].
    [OtherException] stands for every other subclass of [Exception]
    ([PermissionError], [IsADirectoryError], [UnicodeDecodeError],
    [jsonschema.SchemaError], ...). *)
Inductive exn : Type :=
| FileNotFoundError (str : string)
| CalledProcessError (str : string)
| YAMLError (str : string)
| JSONDecodeError (str : string)
| ValidationError (message str : string)
| OtherException (str : string).

Definition str_of (e : exn) : string :=
  match e with
  | FileNotFoundError s | CalledProcessError s | YAMLError s
  | JSONDecodeError s | OtherException s => s
  | ValidationError _ s => s
  end.

(** What a call does: it returns a value or raises. *)
Inductive outcome (A : Type) : Type :=
| Returns (a : A)
| Raises (e : exn).
Arguments Returns {A} a.
Arguments Raises {A} e.

(** Calls made on [self.logger]. *)
Inductive log_call : Type :=
| LogError (msg : string)
| LogInfo (msg : string)
| LogException (msg : string).

(** A computation: the logger calls it made, in order, and its outcome. *)
Definition Py (A : Type) : Type := (list log_call * outcome A)%type.

Module PyM.

Definition ret {A} (a : A) : Py A := ([], Returns a).

Definition raise {A} (e : exn) : Py A := ([], Raises e).

Definition call {A} (o : outcome A) : Py A := ([], o).

Definition log (l : log_call) : Py unit := ([l], Returns tt).

Definition bind {A B} (m : Py A) (k : A -> Py B) : Py B :=
  match m with
  | (l, Returns a) => let (l', o) := k a in ((l ++ l')%list, o)
  | (l, Raises e) => (l, Raises e)
  end.

(** [try: m  except ... as e: h e], where the clauses of [h] together
    catch every [Exception] that [m] raises.  What a clause itself raises
    is not caught. *)
Definition try_except {A} (m : Py A) (h : exn -> Py A) : Py A :=
  match m with
  | (l, Returns a) => (l, Returns a)
  | (l, Raises e) => let (l', o) := h e in ((l ++ l')%list, o)
  end.

Definition logs {A} (m : Py A) : list log_call := fst m.
Definition result {A} (m : Py A) : outcome A := snd m.

End PyM.

Declare Scope py_scope.
Delimit Scope py_scope with py.
Notation "x <- m ;; k" := (PyM.bind m (fun x => k))
  (at level 61, m at next level, right associativity) : py_scope.
Notation "m ;;; k" := (PyM.bind m (fun _ => k))
  (at level 61, right associativity) : py_scope.

(** ** The host seen by [check_unattended_upgrades] *)

(** The completed process [subprocess.run] returns.  With [text=True] the
    two outputs are decoded texts; output that cannot be decoded makes the
    call raise instead of returning. *)
Record CompletedProcess : Type := {
  returncode : Z;
  stdout : string;
  stderr : string
}.

Record Host : Type := {
  (** [subprocess.run(args, capture_output=True, text=True)] *)
  subprocess_run : list string -> outcome CompletedProcess;
  (** [os.path.exists(path)] *)
  os_path_exists : string -> bool;
  (** [with open(path, 'r') as f: f.read()] *)
  open_read : string -> outcome string
}.

Module Upgrades.

Definition dpkg_args : list string := ["dpkg"; "-s"; "unattended-upgrades"].

Definition auto_upgrades_file : string :=
  "/etc/apt/apt.conf.d/50unattended-upgrades".

Definition auto_updates_file : string :=
  "/etc/apt/apt.conf.d/20auto-upgrades".

Definition allowed_origins : string := "Unattended-Upgrade::Allowed-Origins".

Definition update_package_lists : string :=
  "APT::Periodic::Update-Package-Lists " ++ Text.dquote ++ "1" ++ Text.dquote ++ ";".

Definition periodic_unattended_upgrade : string :=
  "APT::Periodic::Unattended-Upgrade " ++ Text.dquote ++ "1" ++ Text.dquote ++ ";".

Definition msg_not_installed : string :=
  "Unattended upgrades package is not installed.".

Definition msg_not_found (path : string) : string :=
  "Configuration file not found: " ++ path.

Definition msg_origins : string :=
  "Unattended-Upgrade::Allowed-Origins not properly configured.".

Definition msg_periodic : string :=
  "Automatic updates are not enabled in APT::Periodic.".

Definition msg_enabled : string :=
  "Unattended upgrades are enabled and properly configured.".

Local Open Scope py_scope.

(** The body of the [try] block, lines 33-59. *)
Definition check_body (h : Host) : Py (bool * string) :=
  result <- PyM.call (subprocess_run h dpkg_args) ;;
  if negb (returncode result =? 0) then
    PyM.ret (false, msg_not_installed)
  else if negb (os_path_exists h auto_upgrades_file) then
    PyM.ret (false, msg_not_found auto_upgrades_file)
  else
    content <- PyM.call (open_read h auto_upgrades_file) ;;
    if negb (Text.contains allowed_origins content) then
      PyM.ret (false, msg_origins)
    else if negb (os_path_exists h auto_updates_file) then
      PyM.ret (false, msg_not_found auto_updates_file)
    else
      auto_updates_content <- PyM.call (open_read h auto_updates_file) ;;
      if negb (Text.contains update_package_lists auto_updates_content)
         || negb (Text.contains periodic_unattended_upgrade auto_updates_content)
      then PyM.ret (false, msg_periodic)
      else PyM.ret (true, msg_enabled).

(** The message each [except] clause returns, lines 61-69. *)
Definition error_message (e : exn) : string :=
  match e with
  | FileNotFoundError s => "Error: File not found: " ++ s
  | CalledProcessError s => "Error: Subprocess error: " ++ s
  | _ => "Error: An unexpected error occurred: " ++ str_of e
  end.

(** The [except] clauses, lines 61-69. *)
Definition check_handlers (e : exn) : Py (bool * string) :=
  match e with
  | FileNotFoundError s =>
      PyM.log (LogError ("File not found: " ++ s)) ;;;
      PyM.ret (false, error_message e)
  | CalledProcessError s =>
      PyM.log (LogError ("Subprocess error: " ++ s)) ;;;
      PyM.ret (false, error_message e)
  | _ =>
      PyM.log (LogException ("An unexpected error occurred: " ++ str_of e)) ;;;
      PyM.ret (false, error_message e)
  end.

Definition check_unattended_upgrades (h : Host) : Py (bool * string) :=
  PyM.try_except (check_body h) check_handlers.

End Upgrades.


(** *** The detection steps, in the order the code runs them *)

Module Steps.

Import Upgrades.

Inductive step : Type :=
| QueryPackage      (* dpkg -s unattended-upgrades *)
| LocatePolicy      (* os.path.exists of 50unattended-upgrades *)
| ReadPolicy        (* Allowed-Origins in its text *)
| LocateSchedule    (* os.path.exists of 20auto-upgrades *)
| ReadSchedule.     (* both APT::Periodic directives in its text *)

Definition all_steps : list step :=
  [QueryPackage; LocatePolicy; ReadPolicy; LocateSchedule; ReadSchedule].

Definition index (s : step) : nat :=
  match s with
  | QueryPackage => 0
  | LocatePolicy => 1
  | ReadPolicy => 2
  | LocateSchedule => 3
  | ReadSchedule => 4
  end.

(** The return code of the package query, the only part of the completed
    process the check looks at. *)
Definition package_query (h : Host) : outcome Z :=
  match subprocess_run h dpkg_args with
  | Returns r => Returns (returncode r)
  | Raises e => Raises e
  end.

(** What a step finds when it is run on its own: it passes, it fails
    (package absent, file absent, directive missing) or it raises. *)
Inductive finding : Type :=
| Pass
| Fail
| Error (e : exn).

Definition of_bool (ok : bool) : finding := if ok then Pass else Fail.

Definition run_step (h : Host) (s : step) : finding :=
  match s with
  | QueryPackage =>
      match package_query h with
      | Returns rc => of_bool (rc =? 0)
      | Raises e => Error e
      end
  | LocatePolicy => of_bool (os_path_exists h auto_upgrades_file)
  | ReadPolicy =>
      match open_read h auto_upgrades_file with
      | Returns content => of_bool (Text.contains allowed_origins content)
      | Raises e => Error e
      end
  | LocateSchedule => of_bool (os_path_exists h auto_updates_file)
  | ReadSchedule =>
      match open_read h auto_updates_file with
      | Returns content =>
          of_bool (Text.contains update_package_lists content
                   && Text.contains periodic_unattended_upgrade content)
      | Raises e => Error e
      end
  end.

Definition passes (h : Host) (s : step) : bool :=
  match run_step h s with Pass => true | _ => false end.

Definition fails (h : Host) (s : step) : bool :=
  match run_step h s with Fail => true | _ => false end.

Definition all_pass (h : Host) : bool := forallb (passes h) all_steps.

(** [s] is the first failing step: it fails and every step before it
    passes. *)
Definition first_failing (h : Host) (s : step) : Prop :=
  fails h s = true /\
  forall s', (index s' < index s)%nat -> passes h s' = true.

(** The verdict the code returns at the failure of each step. *)
Definition verdict (s : step) : bool * string :=
  match s with
  | QueryPackage => (false, msg_not_installed)
  | LocatePolicy => (false, msg_not_found auto_upgrades_file)
  | ReadPolicy => (false, msg_origins)
  | LocateSchedule => (false, msg_not_found auto_updates_file)
  | ReadSchedule => (false, msg_periodic)
  end.

(** The steps run in order: the first one that does not pass decides. *)
Fixpoint run_steps (h : Host) (l : list step) : Py (bool * string) :=
  match l with
  | [] => PyM.ret (true, msg_enabled)
  | s :: rest =>
      match run_step h s with
      | Pass => run_steps h rest
      | Fail => PyM.ret (verdict s)
      | Error e => check_handlers e
      end
  end.

(** The input a step consumes. *)
Definition same_input (s : step) (h1 h2 : Host) : Prop :=
  match s with
  | QueryPackage => package_query h1 = package_query h2
  | LocatePolicy =>
      os_path_exists h1 auto_upgrades_file = os_path_exists h2 auto_upgrades_file
  | ReadPolicy => open_read h1 auto_upgrades_file = open_read h2 auto_upgrades_file
  | LocateSchedule =>
      os_path_exists h1 auto_updates_file = os_path_exists h2 auto_updates_file
  | ReadSchedule => open_read h1 auto_updates_file = open_read h2 auto_updates_file
  end.

(** Two hosts agree on the inputs of the steps up to and including [s]. *)
Definition agree_upto (s : step) (h1 h2 : Host) : Prop :=
  forall s', (index s' <= index s)%nat -> same_input s' h1 h2.

End Steps.

(** ** Documents and the imported libraries seen by [audit_config_file] *)

(** The Python values [yaml.safe_load] and [json.load] build.  A float is
    kept as its IEEE-754 bit pattern; nothing below looks inside one.
    Mappings are keyed by strings, as JSON objects are. *)
#[warnings="-register-all"]
Inductive pyobj : Type :=
| PyNone
| PyBool (b : bool)
| PyInt (n : Z)
| PyFloat (bits : Z)
| PyStr (s : string)
| PyList (items : list pyobj)
| PyDict (items : list (string * pyobj)).

(** [yaml], [json] and [jsonschema] are not part of this repository: the
    entry points the code calls are taken as arguments.  The parsers are
    applied to the text of the opened file.  [exn_str] is the call
    [str(e)] that an f-string makes on an exception met in the audit: the
    [__str__] of a [jsonschema] error pretty-prints the instance and the
    schema, and raises (a [RecursionError]) when they are nested too
    deeply; where it returns, it returns the text the exception carries. *)
Record Libs : Type := {
  (** [yaml.safe_load(f)] *)
  yaml_safe_load : string -> outcome pyobj;
  (** [json.load(f)] *)
  json_load : string -> outcome pyobj;
  (** [jsonschema.validate(instance=..., schema=...)] *)
  validate : pyobj -> pyobj -> outcome unit;
  (** [str(e)] *)
  exn_str : exn -> outcome string
}.

Module Audit.

Local Open Scope py_scope.

Definition msg_unsupported : string :=
  "Unsupported configuration file type. Only YAML and JSON are supported.".

Definition msg_valid (config_file : string) : string :=
  "Configuration file '" ++ config_file ++ "' is valid against the schema.".

(** Lines 94-99: load the schema, validate, report success. *)
Definition validate_against (L : Libs) (h : Host)
    (config_file schema_file : string) (config_data : pyobj) : Py bool :=
  schema_text <- PyM.call (open_read h schema_file) ;;
  schema_data <- PyM.call (json_load L schema_text) ;;
  PyM.call (validate L config_data schema_data) ;;;
  PyM.log (LogInfo (msg_valid config_file)) ;;;
  PyM.ret true.

(** The body of the [try] block, lines 84-99. *)
Definition audit_body (L : Libs) (h : Host)
    (config_file schema_file : string) : Py bool :=
  if Text.endswith config_file ".yaml" || Text.endswith config_file ".yml" then
    text <- PyM.call (open_read h config_file) ;;
    config_data <- PyM.call (yaml_safe_load L text) ;;
    validate_against L h config_file schema_file config_data
  else if Text.endswith config_file ".json" then
    text <- PyM.call (open_read h config_file) ;;
    config_data <- PyM.call (json_load L text) ;;
    validate_against L h config_file schema_file config_data
  else
    PyM.log (LogError msg_unsupported) ;;;
    PyM.ret false.

(** The [except] clauses, lines 101-116.  The f-strings of lines 111 and
    115 call [str(e)] inside the clause: when that call raises, nothing has
    been logged yet and the exception leaves the function, no other clause
    of the same [try] catching it. *)
Definition audit_handlers (L : Libs) (e : exn) : Py bool :=
  match e with
  | FileNotFoundError s =>
      PyM.log (LogError ("File not found: " ++ s)) ;;;
      PyM.ret false
  | YAMLError s =>
      PyM.log (LogError ("YAML parsing error: " ++ s)) ;;;
      PyM.ret false
  | JSONDecodeError s =>
      PyM.log (LogError ("JSON parsing error: " ++ s)) ;;;
      PyM.ret false
  | ValidationError message _ =>
      text <- PyM.call (exn_str L e) ;;
      PyM.log (LogError ("Validation error: " ++ text)) ;;;
      PyM.log (LogError ("Error message: " ++ message)) ;;;
      PyM.ret false
  | _ =>
      text <- PyM.call (exn_str L e) ;;
      PyM.log (LogException ("An unexpected error occurred: " ++ text)) ;;;
      PyM.ret false
  end.

Definition audit_config_file (L : Libs) (h : Host)
    (config_file schema_file : string) : Py bool :=
  PyM.try_except (audit_body L h config_file schema_file) (audit_handlers L).

(** The configuration document the code hands to [validate], when loading
    gets that far. *)
Definition load_config (L : Libs) (h : Host) (config_file : string)
  : option (outcome pyobj) :=
  if Text.endswith config_file ".yaml" || Text.endswith config_file ".yml" then
    Some match open_read h config_file with
         | Returns text => yaml_safe_load L text
         | Raises e => Raises e
         end
  else if Text.endswith config_file ".json" then
    Some match open_read h config_file with
         | Returns text => json_load L text
         | Raises e => Raises e
         end
  else None.

Definition load_schema (L : Libs) (h : Host) (schema_file : string)
  : outcome pyobj :=
  match open_read h schema_file with
  | Returns text => json_load L text
  | Raises e => Raises e
  end.

(** The three extensions the dispatch knows. *)
Definition extensions : list string := [".yaml"; ".yml"; ".json"].

End Audit.

(** ** The [required] keyword of the schema validator *)

Module Required.

Definition has_key (k : string) (d : list (string * pyobj)) : bool :=
  existsb (fun kv => String.eqb (fst kv) k) d.

Fixpoint lookup (k : string) (d : list (string * pyobj)) : option pyobj :=
  match d with
  | [] => None
  | (k', v) :: rest => if String.eqb k' k then Some v else lookup k rest
  end.

Definition strings (l : list pyobj) : list string :=
  flat_map (fun o => match o with PyStr s => [s] | _ => [] end) l.

(** The property names the schema's [required] list holds. *)
Definition required_names (schema : pyobj) : list string :=
  match schema with
  | PyDict d =>
      match lookup "required" d with
      | Some (PyList ps) => strings ps
      | _ => []
      end
  | _ => []
  end.


(** Modelled from the spec: [jsonschema.validate] is not under src/; the
    spec (4.2, step 4) gives it standard JSON-Schema semantics.  This is
    the [required] keyword alone: it constrains object instances only, and
    reports the properties of the list that the object does not have, in
    the order of the list. *)
Definition missing (required : list string) (instance : pyobj) : list string :=
  match instance with
  | PyDict d => filter (fun p => negb (has_key p d)) required
  | _ => []
  end.

Definition message (p : string) : string := "'" ++ p ++ "' is a required property".

(** Modelled from the spec: [validate] on a schema that constrains with
    [required] only; the first violation is the one raised.  [render] gives
    the part of [str(e)] that follows the message. *)
Definition validate_required (render : pyobj -> pyobj -> string)
    (instance schema : pyobj) : outcome unit :=
  match missing (required_names schema) instance with
  | [] => Returns tt
  | p :: _ => Raises (ValidationError (message p) (message p ++ render instance schema))
  end.


(** The libraries with the validator above, for any parsers and any
    behaviour of [str(e)]. *)
Definition libs_of (yaml json : string -> outcome pyobj)
    (render : pyobj -> pyobj -> string) (str : exn -> outcome string) : Libs := {|
  yaml_safe_load := yaml;
  json_load := json;
  validate := validate_required render;
  exn_str := str
|}.

End Required.

(** ** Concrete hosts and documents, used to run the definitions *)

Module Examples.

Import Upgrades.

Definition nl : string := String (ascii_of_nat 10) EmptyString.

Definition errno2 (path : string) : exn :=
  FileNotFoundError ("[Errno 2] No such file or directory: '" ++ path ++ "'").

Fixpoint file_text (files : list (string * string)) (path : string) : option string :=
  match files with
  | [] => None
  | (p, t) :: rest => if String.eqb p path then Some t else file_text rest path
  end.

(** A host whose package query has outcome [q] and whose files are [files]. *)
Definition host (q : outcome Z) (files : list (string * string)) : Host := {|
  subprocess_run := fun _ =>
    match q with
    | Returns rc => Returns {| returncode := rc; stdout := EmptyString; stderr := EmptyString |}
    | Raises e => Raises e
    end;
  os_path_exists := fun p => match file_text files p with Some _ => true | None => false end;
  open_read := fun p =>
    match file_text files p with Some t => Returns t | None => Raises (errno2 p) end
|}.

Definition policy_text : string :=
  "Unattended-Upgrade::Allowed-Origins {" ++ nl ++ "};" ++ nl.

Definition schedule_text : string :=
  update_package_lists ++ nl ++ periodic_unattended_upgrade ++ nl.

Definition configured_host : Host :=
  host (Returns 0)
       [(auto_upgrades_file, policy_text); (auto_updates_file, schedule_text)].

(** The package is installed but the policy file is gone. *)
Definition no_policy_host : Host :=
  host (Returns 0) [(auto_updates_file, schedule_text)].

(** As [no_policy_host], with a schedule file that enables nothing. *)
Definition no_policy_host' : Host :=
  host (Returns 0) [(auto_updates_file, EmptyString)].

(** [dpkg -s] exits with 1 for a package that is not installed. *)
Definition not_installed_host : Host := host (Returns 1) [].

(** No [dpkg] binary: [subprocess.run] raises [FileNotFoundError]. *)
Definition no_dpkg_host : Host := host (Raises (errno2 "dpkg")) [].

(** Documents and their texts. *)
Definition q (s : string) : string := Text.dquote ++ s ++ Text.dquote.

Definition port_schema_text : string := "{" ++ q "required" ++ ": [" ++ q "port" ++ "]}".
Definition port_schema : pyobj := PyDict [("required", PyList [PyStr "port"])].

Definition port_json_text : string := "{" ++ q "port" ++ ": 8080}".
Definition port_yaml_text : string := "port: 8080" ++ nl.
Definition port_doc : pyobj := PyDict [("port", PyInt 8080)].

Definition empty_doc : pyobj := PyDict [].

(** The parsers on the texts used here; [yaml.safe_load] gives [None] for
    an empty stream. *)
Definition yaml_table (text : string) : outcome pyobj :=
  if String.eqb text EmptyString then Returns PyNone
  else if String.eqb text port_yaml_text then Returns port_doc
  else if String.eqb text "{}" then Returns empty_doc
  else Raises (YAMLError "could not determine a constructor").

Definition json_table (text : string) : outcome pyobj :=
  if String.eqb text port_schema_text then Returns port_schema
  else if String.eqb text port_json_text then Returns port_doc
  else if String.eqb text "{}" then Returns empty_doc
  else Raises (JSONDecodeError "Expecting value: line 1 column 1 (char 0)").

(** The rest of [str(e)] for [port_schema] and the empty mapping. *)
Definition render (instance schema : pyobj) : string :=
  nl ++ nl ++ "Failed validating 'required' in schema:" ++ nl
  ++ "    {'required': ['port']}" ++ nl ++ nl
  ++ "On instance:" ++ nl ++ "    {}".

Definition libs : Libs := {|
  yaml_safe_load := yaml_table;
  json_load := json_table;
  validate := Required.validate_required render;
  exn_str := fun e => Returns (str_of e)
|}.

Definition files_host (files : list (string * string)) : Host :=
  host (Returns 0) files.


(** An empty mapping next to the same schema. *)
Definition empty_mapping_host : Host :=
  files_host [("cfg.json", "{}"); ("schema.json", port_schema_text)].

(** The same document as YAML and as JSON. *)
Definition twin_host : Host :=
  files_host [("cfg.yml", port_yaml_text); ("cfg.json", port_json_text);
              ("schema.json", port_schema_text)].

End Examples.

(** ** How a run of the check stops, and the level of a logger call *)

Module Flow.

Import Steps.

(** [s] is where the run stops: it does not pass (it fails or it raises)
    and every step before it passes. *)
Definition stops_at (h : Host) (s : step) : Prop :=
  passes h s = false /\
  forall s', (index s' < index s)%nat -> passes h s' = true.

(** [logger.error] and [logger.exception] both log at level ERROR. *)
Definition error_level (l : log_call) : bool :=
  match l with
  | LogError _ | LogException _ => true
  | LogInfo _ => false
  end.

End Flow.

(** ** The command line driver, [main] *)

Module Cli.

(** The namespace [parser.parse_args()] returns for the parser that
    [setup_argparse] builds: a [store_true] flag and two optional strings
    ([None] when the option is not given). *)
Record Namespace : Type := {
  check_upgrades : bool;
  config_file : option string;
  schema_file : option string
}.

(** What a run of [main] writes: lines printed on standard output and the
    records of the logger, in order. *)
Inductive event : Type :=
| Print (line : string)
| Log (l : log_call).

(** How a run of [main] ends: it falls off the end, [sys.exit(code)] is
    called, or an exception escapes. *)
Inductive termination : Type :=
| Finished
| SystemExit (code : Z)
| Uncaught (e : exn).

Definition Run : Type := (list event * termination)%type.

(** The stream behind [print]: writing a line succeeds, or raises when the
    stream's encoding cannot encode it ([UnicodeEncodeError]).  It is
    consulted for the lines that hold a path given on the command line;
    the other lines are ASCII, which every encoding of the stream takes. *)
Record Stdout : Type := {
  write : string -> option exn
}.

(** [print(line)] followed by what comes after it. *)
Definition print_path (out : Stdout) (line : string) (after : termination) : Run :=
  match write out line with
  | None => ([Print line], after)
  | Some e => ([], Uncaught e)
  end.

(** Statements in sequence: the second runs when the first finished. *)
Definition seq (r1 r2 : Run) : Run :=
  match r1 with
  | (ev, Finished) => ((ev ++ fst r2)%list, snd r2)
  | _ => r1
  end.

(** Truth value of an optional string: [None] and the empty string are
    false. *)
Definition truthy (o : option string) : bool :=
  match o with
  | Some s => negb (String.eqb s EmptyString)
  | None => false
  end.

(** Lines 140-142. *)
Definition upgrades_part (h : Host) (args : Namespace) : Run :=
  if check_upgrades args then
    match Upgrades.check_unattended_upgrades h with
    | (l, Returns (enabled, status)) => ((map Log l ++ [Print status])%list, Finished)
    | (l, Raises e) => (map Log l, Uncaught e)
    end
  else ([], Finished).

(** Lines 145-156, for the two paths [c] and [s]. *)
Definition audit_files (L : Libs) (h : Host) (out : Stdout) (c s : string) : Run :=
  if negb (os_path_exists h c) then
    print_path out ("Error: Configuration file not found: " ++ c) (SystemExit 1)
  else if negb (os_path_exists h s) then
    print_path out ("Error: Schema file not found: " ++ s) (SystemExit 1)
  else
    match Audit.audit_config_file L h c s with
    | (l, Returns true) =>
        ((map Log l ++ [Print "Configuration file is valid."])%list, Finished)
    | (l, Returns false) =>
        ((map Log l ++ [Print "Configuration file is invalid."])%list, SystemExit 1)
    | (l, Raises e) => (map Log l, Uncaught e)
    end.

(** Lines 144-156. *)
Definition audit_part (L : Libs) (h : Host) (out : Stdout) (args : Namespace) : Run :=
  if truthy (config_file args) && truthy (schema_file args) then
    match config_file args, schema_file args with
    | Some c, Some s => audit_files L h out c s
    | _, _ => ([], Finished)
    end
  else ([], Finished).

(** [main], lines 138-156, from the parsed arguments on. *)
Definition main (L : Libs) (h : Host) (out : Stdout) (args : Namespace) : Run :=
  seq (upgrades_part h args) (audit_part L h out args).

Definition events (r : Run) : list event := fst r.
Definition ending (r : Run) : termination := snd r.

(** The lines a run printed. *)
Definition printed (r : Run) : list string :=
  flat_map (fun e => match e with Print s => [s] | Log _ => [] end) (events r).

End Cli.

(** ** More hosts *)

Module MoreExamples.

Import Upgrades Examples.

(** As [configured_host], with the output [dpkg -s] writes and some other
    file on the disk. *)
Definition chatty_host : Host := {|
  subprocess_run := fun _ =>
    Returns {| returncode := 0;
               stdout := "Package: unattended-upgrades" ++ nl
                         ++ "Status: install ok installed" ++ nl;
               stderr := EmptyString |};
  os_path_exists := fun p =>
    os_path_exists configured_host p || String.eqb p "/etc/motd";
  open_read := fun p =>
    if String.eqb p "/etc/motd" then Returns "hello" else open_read configured_host p
|}.

(** The policy file is there but cannot be read. *)
Definition permission_denied : exn :=
  OtherException ("[Errno 13] Permission denied: '" ++ auto_upgrades_file ++ "'").

Definition unreadable_policy (schedule : string) : Host := {|
  subprocess_run := subprocess_run configured_host;
  os_path_exists := os_path_exists configured_host;
  open_read := fun p =>
    if String.eqb p auto_upgrades_file then Raises permission_denied
    else if String.eqb p auto_updates_file then Returns schedule
    else open_read configured_host p
|}.

(** Both directives present, each behind a comment mark. *)
Definition commented_host : Host :=
  host (Returns 0)
       [(auto_upgrades_file, "// " ++ policy_text ++ "// end");
        (auto_updates_file, "# " ++ schedule_text ++ "# end")].

(** A YAML file that does not parse, and two spellings of one YAML file. *)
Definition broken_yaml_host : Host :=
  files_host [("cfg.yaml", "port: ["); ("schema.json", port_schema_text);
              ("other.json", "{}")].

Definition two_yaml_host : Host :=
  files_host [("cfg.yaml", port_yaml_text); ("cfg.yml", port_yaml_text);
              ("schema.json", port_schema_text)].

(** A text file next to a schema. *)
Definition txt_host : Host :=
  files_host [("cfg.txt", port_json_text); ("schema.json", port_schema_text)].

(** A document nested too deeply to be pretty-printed: [depth] lists
    inside one another, under the key [deep] of a mapping without [port]. *)
Fixpoint nest (depth : nat) : pyobj :=
  match depth with
  | O => PyList []
  | S k => PyList [nest k]
  end.

Fixpoint repeat_text (s : string) (n : nat) : string :=
  match n with
  | O => EmptyString
  | S k => s ++ repeat_text s k
  end.

Definition deep_doc : pyobj := PyDict [("deep", nest 400)].

Definition deep_text : string :=
  "{" ++ q "deep" ++ ": " ++ repeat_text "[" 401 ++ repeat_text "]" 401 ++ "}".

Definition deep_json_table (text : string) : outcome pyobj :=
  if String.eqb text deep_text then Returns deep_doc else json_table text.

Definition recursion_error : exn :=
  OtherException "maximum recursion depth exceeded".

(** [str(e)] where the instance is [deep_doc]: rendering a validation
    error pretty-prints the instance and exceeds the recursion limit. *)
Definition deep_str (e : exn) : outcome string :=
  match e with
  | ValidationError _ _ => Raises recursion_error
  | _ => Returns (str_of e)
  end.

Definition deep_libs : Libs :=
  Required.libs_of yaml_table deep_json_table render deep_str.

Definition deep_host : Host :=
  files_host [("deep.json", deep_text); ("schema.json", port_schema_text)].







(** A standard output that takes every line, and one that takes ASCII
    only. *)
Definition any_stdout : Cli.Stdout := {| Cli.write := fun _ => None |}.

Fixpoint is_ascii (s : string) : bool :=
  match s with
  | EmptyString => true
  | String c rest => (nat_of_ascii c <? 128)%nat && is_ascii rest
  end.

Definition ascii_stdout : Cli.Stdout := {|
  Cli.write := fun line =>
    if is_ascii line then None
    else Some (OtherException "'ascii' codec can't encode characters: ordinal not in range(128)")
|}.

(** A path with a byte outside ASCII. *)
Definition latin_path : string :=
  "caf" ++ String (ascii_of_nat 233) EmptyString ++ ".json".

Definition only_upgrades : Cli.Namespace :=
  {| Cli.check_upgrades := true; Cli.config_file := None; Cli.schema_file := None |}.

Definition audit_args (c s : string) : Cli.Namespace :=
  {| Cli.check_upgrades := false; Cli.config_file := Some c; Cli.schema_file := Some s |}.

End MoreExamples.

(** * Properties *)

(** ** Text *)

Module TextFacts.

Import Text.

Lemma prefix_app (n h : string) :
  String.prefix n h = true <-> exists b, h = n ++ b.
Proof.
  revert h; induction n as [|c n IH]; intros h; simpl.
  - destruct h; split; eauto.
  - destruct h as [|c' h]; simpl.
    + split; [discriminate | intros [b Hb]; discriminate].
    + destruct (ascii_dec c c') as [->|Hne].
      * rewrite IH. split; intros [b Hb]; exists b; congruence.
      * split; [discriminate | intros [b Hb]; congruence].
Qed.

Lemma contains_nil (n : string) :
  contains n EmptyString = String.prefix n EmptyString.
Proof. unfold contains. apply orb_false_r. Qed.

Lemma contains_cons (n : string) (c : ascii) (h : string) :
  contains n (String c h) = String.prefix n (String c h) || contains n h.
Proof. reflexivity. Qed.

Lemma contains_app (n h : string) :
  contains n h = true <-> exists a b, h = a ++ n ++ b.
Proof.
  induction h as [|c h IH].
  - rewrite contains_nil, prefix_app. split.
    + intros [b Hb]. exists EmptyString, b. exact Hb.
    + intros [a [b Hb]]. destruct a; simpl in Hb; [eauto | discriminate].
  - rewrite contains_cons, orb_true_iff, IH, prefix_app. split.
    + intros [[b Hb] | [a [b Hb]]].
      * exists EmptyString, b. exact Hb.
      * exists (String c a), b. simpl. congruence.
    + intros [a [b Hb]]. destruct a as [|c' a]; simpl in Hb.
      * left. eauto.
      * right. exists a, b. congruence.
Qed.

Lemma append_assoc (a b c : string) : (a ++ b) ++ c = a ++ b ++ c.
Proof. induction a; simpl; congruence. Qed.

Lemma length_app (a b : string) :
  String.length (a ++ b) = (String.length a + String.length b)%nat.
Proof. induction a; simpl; congruence. Qed.


Lemma drop_app (p s : string) : drop (String.length p) (p ++ s) = s.
Proof. induction p; simpl; [now destruct s | assumption]. Qed.

Lemma drop_split (n : nat) (s : string) :
  (n <= String.length s)%nat ->
  exists p, s = p ++ drop n s /\ String.length p = n.
Proof.
  revert s; induction n as [|n IH]; intros s Hn.
  - exists EmptyString. now destruct s.
  - destruct s as [|c s]; simpl in *; [lia|].
    destruct (IH s) as [p [Hp Hl]]; [lia|].
    exists (String c p). simpl. split; congruence.
Qed.

Lemma endswith_app (s suffix : string) :
  endswith s suffix = true <-> exists p, s = p ++ suffix.
Proof.
  unfold endswith. rewrite andb_true_iff, Nat.leb_le, String.eqb_eq. split.
  - intros [Hl Hd].
    destruct (@drop_split (String.length s - String.length suffix) s) as [p [Hp _]];
      [lia|].
    exists p. congruence.
  - intros [p ->]. rewrite length_app. split; [lia|].
    replace (String.length p + String.length suffix - String.length suffix)%nat
      with (String.length p) by lia.
    apply drop_app.
Qed.

(** Of two suffixes of one string, the shorter is a suffix of the longer. *)
Lemma app_eq_suffix (p q a b : string) :
  p ++ a = q ++ b -> (String.length b <= String.length a)%nat ->
  exists r, a = r ++ b.
Proof.
  revert q; induction p as [|c p IH]; intros q H Hl; simpl in H.
  - exists q. exact H.
  - destruct q as [|c' q]; simpl in H.
    + exfalso. apply (f_equal String.length) in H. simpl in H.
      rewrite length_app in H. lia.
    + injection H as _ H. eauto.
Qed.

Lemma endswith_nested (s a b : string) :
  endswith s a = true -> endswith s b = true ->
  (String.length b <= String.length a)%nat ->
  endswith a b = true.
Proof.
  rewrite !endswith_app. intros [p ->] [q' H] Hl.
  eapply app_eq_suffix; eauto.
Qed.

Lemma lower_app (a b : string) : lower (a ++ b) = lower a ++ lower b.
Proof. induction a; simpl; congruence. Qed.

Lemma lower_length (s : string) : String.length (lower s) = String.length s.
Proof. induction s; simpl; congruence. Qed.

Lemma endswith_lower (s suffix : string) :
  endswith s suffix = true -> endswith (lower s) (lower suffix) = true.
Proof.
  rewrite !endswith_app. intros [p ->]. exists (lower p). apply lower_app.
Qed.

End TextFacts.

(** ** The upgrade check *)

Module UpgradesFacts.

Import Upgrades Steps.

Lemma error_message_nonempty (e : exn) : error_message e <> EmptyString.
Proof. destruct e; discriminate. Qed.

Lemma verdict_nonempty (s : step) : snd (verdict s) <> EmptyString.
Proof. destruct s; discriminate. Qed.

Lemma verdict_disabled (s : step) : fst (verdict s) = false.
Proof. destruct s; reflexivity. Qed.

Lemma handlers_result (e : exn) :
  PyM.result (check_handlers e) = Returns (false, error_message e).
Proof. destruct e; reflexivity. Qed.

(** The code is the ordered run of the five steps. *)
Local Ltac raised :=
  cbn [PyM.call PyM.bind PyM.try_except app];
  destruct (check_handlers _); reflexivity.

Lemma check_run_steps (h : Host) :
  check_unattended_upgrades h = run_steps h all_steps.
Proof.
  unfold check_unattended_upgrades, check_body, all_steps, run_steps, run_step,
    package_query.
  destruct (subprocess_run h dpkg_args) as [r|e]; [|raised].
  cbn [PyM.call PyM.bind].
  destruct (returncode r =? 0); [|reflexivity].
  destruct (os_path_exists h auto_upgrades_file); [|reflexivity].
  cbn [negb of_bool].
  destruct (open_read h auto_upgrades_file) as [c1|e]; [|raised].
  cbn [PyM.call PyM.bind].
  destruct (Text.contains allowed_origins c1); [|reflexivity].
  destruct (os_path_exists h auto_updates_file); [|reflexivity].
  cbn [negb of_bool].
  destruct (open_read h auto_updates_file) as [c2|e]; [|raised].
  cbn [PyM.call PyM.bind].
  destruct (Text.contains update_package_lists c2),
           (Text.contains periodic_unattended_upgrade c2); reflexivity.
Qed.

(** Whatever the steps find, the run returns a verdict with a message, and
    the verdict is positive exactly when every step passed. *)
Lemma run_steps_returns (h : Host) (l : list step) :
  exists enabled message,
    PyM.result (run_steps h l) = Returns (enabled, message) /\
    message <> EmptyString /\
    (enabled = true <-> forallb (passes h) l = true).
Proof.
  induction l as [|s l IH]; cbn [run_steps forallb].
  - exists true, msg_enabled. repeat split; discriminate.
  - unfold passes at 1. destruct (run_step h s) as [| |e].
    + exact IH.
    + exists (fst (verdict s)), (snd (verdict s)). rewrite verdict_disabled.
      split; [|split].
      * rewrite <- (verdict_disabled s). now destruct (verdict s).
      * apply verdict_nonempty.
      * split; discriminate.
    + exists false, (error_message e). rewrite handlers_result.
      split; [reflexivity|]. split; [apply error_message_nonempty|].
      split; discriminate.
Qed.

Lemma same_input_run_step (s : step) (h1 h2 : Host) :
  same_input s h1 h2 -> run_step h1 s = run_step h2 s.
Proof. destruct s; cbn [same_input run_step]; intros ->; reflexivity. Qed.

(** A run stops at the first failing step, whatever comes after it. *)
Lemma run_steps_first_failing (h : Host) (s : step) (before after : list step) :
  fails h s = true ->
  (forall s', In s' before -> passes h s' = true) ->
  run_steps h (before ++ s :: after)%list = PyM.ret (verdict s).
Proof.
  intros Hf Hp. induction before as [|s' before IH]; cbn [app run_steps].
  - unfold fails in Hf. destruct (run_step h s); try discriminate. reflexivity.
  - assert (H : passes h s' = true) by (apply Hp; now left).
    unfold passes in H. destruct (run_step h s'); try discriminate.
    apply IH. intros s'' Hin. apply Hp. now right.
Qed.

(** The steps before [s] and after it, in the order of [all_steps]. *)
Lemma all_steps_split (s : step) :
  exists before after,
    all_steps = (before ++ s :: after)%list /\
    forall s', In s' before -> (index s' < index s)%nat.
Proof.
  destruct s.
  - exists [], [LocatePolicy; ReadPolicy; LocateSchedule; ReadSchedule].
    split; [reflexivity | intros s' []].
  - exists [QueryPackage], [ReadPolicy; LocateSchedule; ReadSchedule].
    split; [reflexivity | intros s' [<-|[]]; simpl; lia].
  - exists [QueryPackage; LocatePolicy], [LocateSchedule; ReadSchedule].
    split; [reflexivity | intros s' [<-|[<-|[]]]; simpl; lia].
  - exists [QueryPackage; LocatePolicy; ReadPolicy], [ReadSchedule].
    split; [reflexivity | intros s' [<-|[<-|[<-|[]]]]; simpl; lia].
  - exists [QueryPackage; LocatePolicy; ReadPolicy; LocateSchedule], [].
    split; [reflexivity | intros s' [<-|[<-|[<-|[<-|[]]]]]; simpl; lia].
Qed.

Lemma first_failing_verdict (h : Host) (s : step) :
  first_failing h s -> check_unattended_upgrades h = PyM.ret (verdict s).
Proof.
  intros [Hf Hp]. rewrite check_run_steps.
  destruct (all_steps_split s) as [before [after [-> Hlt]]].
  apply run_steps_first_failing; auto.
Qed.

Lemma first_failing_transfer (h1 h2 : Host) (s : step) :
  first_failing h1 s -> agree_upto s h1 h2 -> first_failing h2 s.
Proof.
  intros [Hf Hp] Ha. split.
  - unfold fails in *. rewrite <- (@same_input_run_step s h1 h2); [exact Hf|].
    apply Ha. lia.
  - intros s' Hlt. unfold passes.
    rewrite <- (@same_input_run_step s' h1 h2); [now apply Hp|].
    apply Ha. lia.
Qed.

Import Examples.

(** C1: in every host, whatever the package query, the existence tests and
    the reads return or raise, [check_unattended_upgrades] returns a pair
    [(enabled, message)] and raises nothing; the message is not empty, and
    [enabled] is true only when all five steps passed, so it is false on
    every failure path. *)
Theorem check_never_raises (h : Host) :
  exists enabled message,
    PyM.result (check_unattended_upgrades h) = Returns (enabled, message) /\
    message <> EmptyString /\
    (enabled = true <-> all_pass h = true).
Proof. rewrite check_run_steps. apply run_steps_returns. Qed.

(** C2: package installed, policy file present with the Allowed-Origins
    key, schedule file present with both periodic directives: the verdict
    is enabled, with the success message. *)
Theorem check_enabled (h : Host) (r : CompletedProcess) (content auto_updates_content : string) :
  subprocess_run h ["dpkg"; "-s"; "unattended-upgrades"] = Returns r ->
  returncode r = 0 ->
  os_path_exists h "/etc/apt/apt.conf.d/50unattended-upgrades" = true ->
  open_read h "/etc/apt/apt.conf.d/50unattended-upgrades" = Returns content ->
  Text.contains "Unattended-Upgrade::Allowed-Origins" content = true ->
  os_path_exists h "/etc/apt/apt.conf.d/20auto-upgrades" = true ->
  open_read h "/etc/apt/apt.conf.d/20auto-upgrades" = Returns auto_updates_content ->
  Text.contains update_package_lists auto_updates_content = true ->
  Text.contains periodic_unattended_upgrade auto_updates_content = true ->
  PyM.result (check_unattended_upgrades h)
  = Returns (true, "Unattended upgrades are enabled and properly configured.").
Proof.
  intros Hrun Hrc He1 Hr1 Hc1 He2 Hr2 Hc2 Hc3.
  unfold check_unattended_upgrades, check_body, dpkg_args, auto_upgrades_file,
    auto_updates_file, allowed_origins.
  rewrite Hrun. cbn [PyM.call PyM.bind]. rewrite Hrc, He1, Hr1.
  cbn [PyM.call PyM.bind Z.eqb negb]. rewrite Hc1, He2, Hr2.
  cbn [PyM.call PyM.bind negb]. rewrite Hc2, Hc3. reflexivity.
Qed.

Lemma check_enabled_witness :
  PyM.result (check_unattended_upgrades configured_host)
  = Returns (true, "Unattended upgrades are enabled and properly configured.").
Proof.
  apply (@check_enabled configured_host
           {| returncode := 0; stdout := EmptyString; stderr := EmptyString |}
           policy_text schedule_text); reflexivity.
Defined.

(** C3: when a step fails (package absent, file absent, directive
    missing), the verdict is that of the first failing step, and a host
    that agrees on the inputs of the steps up to that one gets the same
    verdict, whatever the inputs of the later steps are. *)
Theorem check_short_circuits (h1 h2 : Host) (s : step) :
  first_failing h1 s ->
  agree_upto s h1 h2 ->
  check_unattended_upgrades h1 = PyM.ret (verdict s) /\
  check_unattended_upgrades h2 = check_unattended_upgrades h1.
Proof.
  intros Hf Ha.
  rewrite (first_failing_verdict _ _ Hf).
  rewrite (first_failing_verdict _ _ (first_failing_transfer _ _ _ Hf Ha)).
  split; reflexivity.
Qed.

Lemma check_short_circuits_witness :
  check_unattended_upgrades no_policy_host = PyM.ret (verdict LocatePolicy) /\
  check_unattended_upgrades no_policy_host' = check_unattended_upgrades no_policy_host.
Proof.
  apply (@check_short_circuits no_policy_host no_policy_host' LocatePolicy).
  - split; [reflexivity|].
    intros s' Hlt. destruct s'; simpl in Hlt; try lia. reflexivity.
  - intros s' Hle. destruct s'; simpl in Hle; try lia; reflexivity.
Defined.

(** C4, as the code has it: a package query that ran and reported the
    package absent (non-zero return code) gives the not-installed verdict;
    a query that raised gives a negative verdict whose message is the one
    of the [except] clause that caught the exception. *)
Theorem check_package_not_reported (h : Host) (q : outcome Z) :
  package_query h = q ->
  q <> Returns 0 ->
  PyM.result (check_unattended_upgrades h)
  = Returns (false,
             match q with
             | Returns _ => "Unattended upgrades package is not installed."
             | Raises (FileNotFoundError s) => "Error: File not found: " ++ s
             | Raises (CalledProcessError s) => "Error: Subprocess error: " ++ s
             | Raises e => "Error: An unexpected error occurred: " ++ str_of e
             end).
Proof.
  intros Hq Hne. rewrite check_run_steps.
  unfold all_steps. cbn [run_steps run_step]. rewrite Hq.
  destruct q as [rc|e].
  - destruct (Z.eqb_spec rc 0) as [->|_]; [congruence | reflexivity].
  - destruct e; reflexivity.
Qed.

Lemma check_package_not_reported_witness :
  PyM.result (check_unattended_upgrades not_installed_host)
  = Returns (false, "Unattended upgrades package is not installed.").
Proof.
  apply (@check_package_not_reported not_installed_host (Returns 1));
    [reflexivity | discriminate].
Defined.

(** C4, as stated, fails where the query mechanism does not run: without a
    [dpkg] binary the invocation raises [FileNotFoundError], and the
    message is the one of that handler, not the not-installed one. *)
Lemma check_no_dpkg_message :
  package_query no_dpkg_host
  = Raises (FileNotFoundError "[Errno 2] No such file or directory: 'dpkg'") /\
  PyM.result (check_unattended_upgrades no_dpkg_host)
  = Returns (false, "Error: File not found: [Errno 2] No such file or directory: 'dpkg'") /\
  PyM.result (check_unattended_upgrades no_dpkg_host)
  <> Returns (false, "Unattended upgrades package is not installed.").
Proof. repeat split. discriminate. Qed.

(** C5: package installed and no 50unattended-upgrades file: the verdict
    is negative and the message names the path. *)
Theorem check_policy_file_missing (h : Host) (r : CompletedProcess) :
  subprocess_run h ["dpkg"; "-s"; "unattended-upgrades"] = Returns r ->
  returncode r = 0 ->
  os_path_exists h "/etc/apt/apt.conf.d/50unattended-upgrades" = false ->
  PyM.result (check_unattended_upgrades h)
  = Returns (false, "Configuration file not found: /etc/apt/apt.conf.d/50unattended-upgrades").
Proof.
  intros Hrun Hrc He.
  unfold check_unattended_upgrades, check_body, dpkg_args, auto_upgrades_file.
  rewrite Hrun. cbn [PyM.call PyM.bind]. rewrite Hrc, He. reflexivity.
Qed.

Lemma check_policy_file_missing_witness :
  PyM.result (check_unattended_upgrades no_policy_host)
  = Returns (false, "Configuration file not found: /etc/apt/apt.conf.d/50unattended-upgrades").
Proof.
  apply (@check_policy_file_missing no_policy_host
           {| returncode := 0; stdout := EmptyString; stderr := EmptyString |});
    reflexivity.
Defined.

End UpgradesFacts.

(** ** The configuration audit *)

Module AuditFacts.

Import Audit Required Examples MoreExamples.

Lemma result_try_raise {A} (l : list log_call) (e : exn) (hd : exn -> Py A) :
  PyM.result (PyM.try_except (l, Raises e) hd) = PyM.result (hd e).
Proof. unfold PyM.try_except, PyM.result. now destruct (hd e). Qed.

Lemma try_raise_nil {A} (e : exn) (hd : exn -> Py A) :
  PyM.try_except ([], Raises e) hd = hd e.
Proof. unfold PyM.try_except. now destruct (hd e). Qed.

Lemma bind_returns {A B} (a : A) (k : A -> Py B) :
  PyM.bind (PyM.call (Returns a)) k = k a.
Proof. unfold PyM.bind, PyM.call. now destruct (k a). Qed.

Lemma bind_raises {A B} (e : exn) (k : A -> Py B) :
  PyM.bind (PyM.call (Raises e)) k = ([], Raises e).
Proof. reflexivity. Qed.

(** Lines 94-99 once the configuration document is loaded. *)
Lemma validate_against_cases (L : Libs) (h : Host)
    (config_file schema_file : string) (doc : pyobj) :
  PyM.try_except (validate_against L h config_file schema_file doc) (audit_handlers L)
  = match load_schema L h schema_file with
    | Returns schema =>
        match validate L doc schema with
        | Returns _ => ([LogInfo (msg_valid config_file)], Returns true)
        | Raises e => audit_handlers L e
        end
    | Raises e => audit_handlers L e
    end.
Proof.
  unfold validate_against, load_schema.
  destruct (open_read h schema_file) as [text|e];
    rewrite ?bind_returns, ?bind_raises; [|apply try_raise_nil].
  destruct (json_load L text) as [schema|e];
    rewrite ?bind_returns, ?bind_raises; [|apply try_raise_nil].
  destruct (validate L doc schema) as [[]|e];
    rewrite ?bind_returns, ?bind_raises; [reflexivity | apply try_raise_nil].
Qed.

(** The audit runs three stages in order (load the document, load the
    schema, validate) and the first exception goes to the handlers. *)
Lemma audit_cases (L : Libs) (h : Host) (config_file schema_file : string) :
  audit_config_file L h config_file schema_file
  = match load_config L h config_file with
    | None => ([LogError msg_unsupported], Returns false)
    | Some (Raises e) => audit_handlers L e
    | Some (Returns doc) =>
        match load_schema L h schema_file with
        | Returns schema =>
            match validate L doc schema with
            | Returns _ => ([LogInfo (msg_valid config_file)], Returns true)
            | Raises e => audit_handlers L e
            end
        | Raises e => audit_handlers L e
        end
    end.
Proof.
  unfold audit_config_file, audit_body, load_config.
  destruct (Text.endswith config_file ".yaml" || Text.endswith config_file ".yml").
  - destruct (open_read h config_file) as [text|e];
      rewrite ?bind_returns, ?bind_raises; [|apply try_raise_nil].
    destruct (yaml_safe_load L text) as [doc|e];
      rewrite ?bind_returns, ?bind_raises; [|apply try_raise_nil].
    apply validate_against_cases.
  - destruct (Text.endswith config_file ".json"); [|reflexivity].
    destruct (open_read h config_file) as [text|e];
      rewrite ?bind_returns, ?bind_raises; [|apply try_raise_nil].
    destruct (json_load L text) as [doc|e];
      rewrite ?bind_returns, ?bind_raises; [|apply try_raise_nil].
    apply validate_against_cases.
Qed.

(** A handler returns [False] unless [str(e)] raises in it. *)
Lemma audit_handlers_returns (L : Libs) (e : exn) (text : string) :
  exn_str L e = Returns text ->
  PyM.result (audit_handlers L e) = Returns false.
Proof. intros H. destruct e; cbn [audit_handlers]; rewrite ?H; reflexivity. Qed.

(** A path that ends in [.json] ends in neither YAML extension. *)
Lemma json_not_yaml (config_file : string) :
  Text.endswith config_file ".json" = true ->
  Text.endswith config_file ".yaml" || Text.endswith config_file ".yml" = false.
Proof.
  intros Hj. apply orb_false_iff. split.
  - destruct (Text.endswith config_file ".yaml") eqn:Hy; [|reflexivity].
    now pose proof (TextFacts.endswith_nested _ _ _ Hj Hy (le_n _)).
  - destruct (Text.endswith config_file ".yml") eqn:Hy; [|reflexivity].
    assert (Hl : (String.length ".yml" <= String.length ".json")%nat) by (simpl; lia).
    now pose proof (TextFacts.endswith_nested _ _ _ Hj Hy Hl).
Qed.

Lemma yml_is_yaml (config_file : string) :
  Text.endswith config_file ".yml" = true ->
  Text.endswith config_file ".yaml" || Text.endswith config_file ".yml" = true.
Proof. intros ->. apply orb_true_r. Qed.



(** C6 fails on the code at a document that is too deep to pretty-print:
    the document loads, the validator raises a [ValidationError], the
    clause of line 110 is entered, [str(e)] raises there before anything
    is logged, and the exception leaves [audit_config_file]. *)
Theorem audit_raises_on_deep_document :
  load_config deep_libs deep_host "deep.json" = Some (Returns deep_doc) /\
  load_schema deep_libs deep_host "schema.json" = Returns port_schema /\
  (exists message str,
     validate deep_libs deep_doc port_schema = Raises (ValidationError message str)) /\
  audit_config_file deep_libs deep_host "deep.json" "schema.json"
  = ([], Raises recursion_error).
Proof.
  split; [vm_compute; reflexivity|]. split; [vm_compute; reflexivity|].
  split; [eexists; eexists; vm_compute; reflexivity|].
  vm_compute. reflexivity.
Qed.

(** C7: a configuration path that ends in none of [.yaml], [.yml], [.json]
    is rejected, whatever the files hold and whether or not they exist. *)
Theorem audit_unsupported_extension (L : Libs) (h : Host)
    (config_file schema_file : string) :
  Text.endswith config_file ".yaml" = false ->
  Text.endswith config_file ".yml" = false ->
  Text.endswith config_file ".json" = false ->
  audit_config_file L h config_file schema_file
  = ([LogError "Unsupported configuration file type. Only YAML and JSON are supported."],
     Returns false).
Proof.
  intros H1 H2 H3. unfold audit_config_file, audit_body.
  rewrite H1, H2, H3. reflexivity.
Qed.

Lemma audit_unsupported_extension_witness :
  audit_config_file libs twin_host "cfg.txt" "schema.json"
  = ([LogError "Unsupported configuration file type. Only YAML and JSON are supported."],
     Returns false).
Proof. apply audit_unsupported_extension; reflexivity. Defined.




(** C9: a [.yml] file and a [.json] file that load to the same document
    get the same verdict against the same schema. *)
Theorem audit_yml_json_agree (L : Libs) (h : Host)
    (yml_file json_file schema_file yaml_text json_text : string) (doc : pyobj) :
  Text.endswith yml_file ".yml" = true ->
  open_read h yml_file = Returns yaml_text ->
  yaml_safe_load L yaml_text = Returns doc ->
  Text.endswith json_file ".json" = true ->
  open_read h json_file = Returns json_text ->
  json_load L json_text = Returns doc ->
  PyM.result (audit_config_file L h yml_file schema_file)
  = PyM.result (audit_config_file L h json_file schema_file).
Proof.
  intros Hy Hoy Hly Hj Hoj Hlj. rewrite !audit_cases. unfold load_config.
  rewrite (yml_is_yaml _ Hy), (json_not_yaml _ Hj), Hj, Hoy, Hly, Hoj, Hlj.
  destruct (load_schema L h schema_file) as [schema|e]; [|reflexivity].
  destruct (validate L doc schema) as [[]|e]; reflexivity.
Qed.

Lemma audit_yml_json_agree_witness :
  PyM.result (audit_config_file libs twin_host "cfg.yml" "schema.json")
  = PyM.result (audit_config_file libs twin_host "cfg.json" "schema.json").
Proof.
  apply (@audit_yml_json_agree libs twin_host "cfg.yml" "cfg.json" "schema.json"
           port_yaml_text port_json_text port_doc); reflexivity.
Defined.

(** Two of the three extensions never end the same lower-cased path, and
    an exact match is a match up to case. *)
Lemma exact_excludes_other (config_file ext other : string) :
  In ext extensions -> In other extensions -> ext <> other ->
  Text.endswith (Text.lower config_file) ext = true ->
  Text.endswith config_file other = false.
Proof.
  intros He Ho Hne Hl.
  destruct (Text.endswith config_file other) eqn:Hx; [exfalso|reflexivity].
  apply TextFacts.endswith_lower in Hx.
  assert (Hlow : Text.lower other = other).
  { simpl in Ho. decompose [or] Ho; subst; try reflexivity; contradiction. }
  rewrite Hlow in Hx.
  simpl in He, Ho.
  decompose [or] He; decompose [or] Ho; subst; try contradiction;
    try congruence;
    match goal with
    | Ha : Text.endswith ?s ?a = true, Hb : Text.endswith ?s ?b = true |- _ =>
        first
          [ assert (Hn : Text.endswith a b = true)
              by (apply (TextFacts.endswith_nested _ _ _ Ha Hb); simpl; lia);
            discriminate Hn
          | assert (Hn : Text.endswith b a = true)
              by (apply (TextFacts.endswith_nested _ _ _ Hb Ha); simpl; lia);
            discriminate Hn ]
    end.
Qed.

(** C10: the dispatch is case-sensitive.  A path whose end is one of the
    three extensions up to letter case, but not that extension itself, is
    an unsupported type and is rejected, whatever the files hold. *)
Theorem audit_extension_case_sensitive (L : Libs) (h : Host)
    (config_file schema_file ext : string) :
  In ext [".yaml"; ".yml"; ".json"] ->
  Text.endswith (Text.lower config_file) ext = true ->
  Text.endswith config_file ext = false ->
  audit_config_file L h config_file schema_file
  = ([LogError "Unsupported configuration file type. Only YAML and JSON are supported."],
     Returns false).
Proof.
  intros He Hl Hx.
  assert (Hall : forall other, In other extensions ->
                               Text.endswith config_file other = false).
  { intros other Ho. destruct (string_dec ext other) as [<-|Hne]; [exact Hx|].
    now apply (@exact_excludes_other config_file ext other). }
  unfold audit_config_file, audit_body.
  rewrite (Hall ".yaml"), (Hall ".yml"), (Hall ".json") by (simpl; auto).
  reflexivity.
Qed.

Lemma audit_extension_case_sensitive_witness :
  audit_config_file libs twin_host "cfg.YAML" "schema.json"
  = ([LogError "Unsupported configuration file type. Only YAML and JSON are supported."],
     Returns false).
Proof.
  apply (@audit_extension_case_sensitive libs twin_host "cfg.YAML" "schema.json" ".yaml");
    [simpl; auto | reflexivity | reflexivity].
Defined.

End AuditFacts.

(** ** The upgrade check: what it reads, where it stops, what it logs *)

Module UpgradesMore.

Import Upgrades Steps Flow Examples MoreExamples.

Lemma run_steps_ext (h1 h2 : Host) (l : list step) :
  (forall s, In s l -> run_step h1 s = run_step h2 s) ->
  run_steps h1 l = run_steps h2 l.
Proof.
  induction l as [|s l IH]; intros H; cbn [run_steps]; [reflexivity|].
  rewrite <- (H s (or_introl eq_refl)).
  destruct (run_step h1 s); try reflexivity.
  apply IH. intros s' Hin. apply H. now right.
Qed.

Lemma run_steps_skip (h : Host) (before rest : list step) :
  (forall s, In s before -> passes h s = true) ->
  run_steps h (before ++ rest)%list = run_steps h rest.
Proof.
  induction before as [|s before IH]; intros H; cbn [app run_steps]; [reflexivity|].
  assert (Hs : passes h s = true) by (apply H; now left).
  unfold passes in Hs. destruct (run_step h s); try discriminate.
  apply IH. intros s' Hin. apply H. now right.
Qed.

Lemma all_pass_enabled (h : Host) :
  all_pass h = true ->
  check_unattended_upgrades h = PyM.ret (true, msg_enabled).
Proof.
  intros Hall. rewrite UpgradesFacts.check_run_steps.
  rewrite <- (app_nil_r all_steps). rewrite run_steps_skip; [reflexivity|].
  intros s Hin. unfold all_pass in Hall.
  rewrite forallb_forall in Hall. now apply Hall.
Qed.

Lemma enabled_all_pass (h : Host) (message : string) :
  PyM.result (check_unattended_upgrades h) = Returns (true, message) ->
  all_pass h = true.
Proof.
  intros Hr. rewrite UpgradesFacts.check_run_steps in Hr.
  destruct (UpgradesFacts.run_steps_returns h all_steps) as (en & m & Hres & _ & Hiff).
  rewrite Hr in Hres. injection Hres as <- _. now apply Hiff.
Qed.

(** The first non-empty message of a step is not an error message. *)
Lemma verdict_not_error (s : step) :
  String.prefix "Error: " (snd (verdict s)) = false.
Proof. destruct s; reflexivity. Qed.

Lemma error_message_prefix (e : exn) :
  String.prefix "Error: " (error_message e) = true.
Proof. destruct e; reflexivity. Qed.

Lemma verdict_injective (s1 s2 : step) : verdict s1 = verdict s2 -> s1 = s2.
Proof. destruct s1, s2; intros H; try reflexivity; discriminate H. Qed.

Lemma contains_padded (needle a c b : string) :
  Text.contains needle c = true -> Text.contains needle (a ++ c ++ b) = true.
Proof.
  rewrite !TextFacts.contains_app. intros (x & y & ->).
  exists (a ++ x), (y ++ b). now rewrite !TextFacts.append_assoc.
Qed.

(** X1: the check consults nothing but the outcome of the package query
    (the return code of a query that returned, the exception of one that
    raised, as it does on output it cannot decode), the two existence
    tests and the two texts: hosts that agree on these give the same
    verdict and the same log, whatever the decoded output of dpkg says and
    whatever else is on the disk. *)
Theorem check_reads_only_step_inputs (h1 h2 : Host) :
  (forall s, same_input s h1 h2) ->
  check_unattended_upgrades h1 = check_unattended_upgrades h2.
Proof.
  intros H. rewrite !UpgradesFacts.check_run_steps.
  apply run_steps_ext. intros s _.
  apply UpgradesFacts.same_input_run_step, H.
Qed.

Lemma check_reads_only_step_inputs_witness :
  check_unattended_upgrades configured_host = check_unattended_upgrades chatty_host.
Proof.
  apply (check_reads_only_step_inputs configured_host chatty_host).
  intros s. destruct s; reflexivity.
Defined.

(** X2: a step that raises stops the run like one that fails: when [s] is
    the first step of [h1] that does not pass, a host that agrees with
    [h1] on the inputs up to [s] gives the same verdict and the same log,
    whatever the later inputs are. *)
Theorem check_stops_at_first_obstacle (h1 h2 : Host) (s : step) :
  stops_at h1 s ->
  agree_upto s h1 h2 ->
  check_unattended_upgrades h2 = check_unattended_upgrades h1.
Proof.
  intros [Hs Hp] Ha. rewrite !UpgradesFacts.check_run_steps.
  destruct (UpgradesFacts.all_steps_split s) as (before & after & -> & Hlt).
  assert (Heq : forall s', (index s' <= index s)%nat -> run_step h2 s' = run_step h1 s').
  { intros s' Hle. symmetry. apply UpgradesFacts.same_input_run_step. now apply Ha. }
  rewrite !run_steps_skip.
  - cbn [run_steps]. rewrite (Heq s (le_n _)).
    unfold passes in Hs. destruct (run_step h1 s); [discriminate | reflexivity..].
  - intros s' Hin. now apply Hp, Hlt.
  - intros s' Hin. unfold passes. rewrite Heq by (apply Nat.lt_le_incl; auto).
    now apply Hp, Hlt.
Qed.

Lemma check_stops_at_first_obstacle_witness :
  check_unattended_upgrades (unreadable_policy EmptyString)
  = check_unattended_upgrades (unreadable_policy schedule_text).
Proof.
  apply (check_stops_at_first_obstacle (unreadable_policy schedule_text)
           (unreadable_policy EmptyString) ReadPolicy).
  - split; [reflexivity|].
    intros s' Hlt. destruct s'; simpl in Hlt; try lia; reflexivity.
  - intros s' Hle. destruct s'; simpl in Hle; try lia; reflexivity.
Defined.

Lemma run_steps_logging (h : Host) (l : list step) :
  exists enabled message,
    PyM.result (run_steps h l) = Returns (enabled, message) /\
    ((PyM.logs (run_steps h l) = [] /\ String.prefix "Error: " message = false) \/
     (enabled = false /\ String.prefix "Error: " message = true /\
      exists record, PyM.logs (run_steps h l) = [record] /\ error_level record = true)).
Proof.
  induction l as [|s l IH]; cbn [run_steps].
  - exists true, msg_enabled. split; [reflexivity|]. left. split; reflexivity.
  - destruct (run_step h s) as [| |e].
    + exact IH.
    + exists (fst (verdict s)), (snd (verdict s)). split.
      * now destruct (verdict s).
      * left. split; [reflexivity | apply verdict_not_error].
    + exists false, (error_message e). split; [apply UpgradesFacts.handlers_result|].
      right. split; [reflexivity|]. split; [apply error_message_prefix|].
      destruct e; eexists; split; reflexivity.
Qed.

(** X3: the check logs exactly when it caught an exception.  Either it
    logged nothing and the message does not start with [Error: ], or the
    verdict is negative, the message starts with [Error: ] and one record
    was logged, at level ERROR. *)
Theorem check_logs_caught_exceptions (h : Host) :
  exists enabled message,
    PyM.result (check_unattended_upgrades h) = Returns (enabled, message) /\
    ((PyM.logs (check_unattended_upgrades h) = [] /\
      String.prefix "Error: " message = false) \/
     (enabled = false /\ String.prefix "Error: " message = true /\
      exists record,
        PyM.logs (check_unattended_upgrades h) = [record] /\
        error_level record = true)).
Proof. rewrite UpgradesFacts.check_run_steps. apply run_steps_logging. Qed.

(** X4: the directives are found by substring search, so text around them
    does not matter: when a host is reported enabled, a host whose two
    files hold the same texts with anything before and after them (a
    comment mark, say) is reported enabled as well. *)
Theorem check_enabled_survives_padding (h h' : Host)
    (content auto_updates_content a1 b1 a2 b2 : string) :
  PyM.result (check_unattended_upgrades h) = Returns (true, msg_enabled) ->
  open_read h auto_upgrades_file = Returns content ->
  open_read h auto_updates_file = Returns auto_updates_content ->
  package_query h' = package_query h ->
  os_path_exists h' auto_upgrades_file = os_path_exists h auto_upgrades_file ->
  os_path_exists h' auto_updates_file = os_path_exists h auto_updates_file ->
  open_read h' auto_upgrades_file = Returns (a1 ++ content ++ b1) ->
  open_read h' auto_updates_file = Returns (a2 ++ auto_updates_content ++ b2) ->
  PyM.result (check_unattended_upgrades h') = Returns (true, msg_enabled).
Proof.
  intros Hen Hr1 Hr2 Hq He1 He2 Hr1' Hr2'.
  apply enabled_all_pass in Hen.
  rewrite (all_pass_enabled h'); [reflexivity|].
  revert Hen. unfold all_pass, all_steps, passes, run_step. cbn [forallb].
  rewrite Hq, He1, He2, Hr1, Hr2, Hr1', Hr2'.
  destruct (package_query h) as [rc|e]; [|discriminate].
  destruct (rc =? 0); [|discriminate].
  destruct (os_path_exists h auto_upgrades_file); [|discriminate].
  destruct (Text.contains allowed_origins content) eqn:Hc1; [|discriminate].
  destruct (os_path_exists h auto_updates_file); [|discriminate].
  destruct (Text.contains update_package_lists auto_updates_content) eqn:Hc2;
    [|discriminate].
  destruct (Text.contains periodic_unattended_upgrade auto_updates_content) eqn:Hc3;
    [|discriminate].
  intros _.
  rewrite (contains_padded _ a1 _ b1 Hc1), (contains_padded _ a2 _ b2 Hc2),
    (contains_padded _ a2 _ b2 Hc3).
  reflexivity.
Qed.

Lemma check_enabled_survives_padding_witness :
  PyM.result (check_unattended_upgrades commented_host) = Returns (true, msg_enabled).
Proof.
  apply (check_enabled_survives_padding configured_host commented_host
           policy_text schedule_text "// " "// end" "# " "# end"); reflexivity.
Defined.

(** X5: the message tells the cause: two hosts that fail first at
    different steps never get the same verdict. *)
Theorem check_message_tells_step (h1 h2 : Host) (s1 s2 : step) :
  first_failing h1 s1 ->
  first_failing h2 s2 ->
  s1 <> s2 ->
  PyM.result (check_unattended_upgrades h1) <> PyM.result (check_unattended_upgrades h2).
Proof.
  intros H1 H2 Hne Heq.
  rewrite (UpgradesFacts.first_failing_verdict _ _ H1) in Heq.
  rewrite (UpgradesFacts.first_failing_verdict _ _ H2) in Heq.
  injection Heq as Heq. now apply Hne, verdict_injective.
Qed.

Lemma check_message_tells_step_witness :
  PyM.result (check_unattended_upgrades not_installed_host)
  <> PyM.result (check_unattended_upgrades no_policy_host).
Proof.
  apply (check_message_tells_step not_installed_host no_policy_host
           QueryPackage LocatePolicy).
  - split; [reflexivity|]. intros s' Hlt. destruct s'; simpl in Hlt; lia.
  - split; [reflexivity|].
    intros s' Hlt. destruct s'; simpl in Hlt; try lia. reflexivity.
  - discriminate.
Defined.

End UpgradesMore.

(** ** The audit: the order of its stages and what it logs *)

Module AuditMore.

Import Audit Flow Examples MoreExamples.

(** What a handler leaves behind: [False] with records at level ERROR, or,
    when [str(e)] raised in it, no record at all. *)
Lemma audit_handlers_logs (L : Libs) (e : exn) :
  match PyM.result (audit_handlers L e) with
  | Returns valid =>
      valid = false /\
      PyM.logs (audit_handlers L e) <> [] /\
      forallb error_level (PyM.logs (audit_handlers L e)) = true
  | Raises _ => PyM.logs (audit_handlers L e) = []
  end.
Proof.
  destruct e; cbn [audit_handlers];
    try (repeat split; discriminate);
    destruct (exn_str L _); cbn; repeat split; discriminate.
Qed.

(** X6: what the log says about the outcome of the audit.  [True] comes
    with one INFO record that names the configuration file and nothing
    else; [False] comes with at least one record, all of them at level
    ERROR; an exception that leaves the function leaves no record. *)
Theorem audit_logs_every_verdict (L : Libs) (h : Host)
    (config_file schema_file : string) :
  match PyM.result (audit_config_file L h config_file schema_file) with
  | Returns true =>
      PyM.logs (audit_config_file L h config_file schema_file)
      = [LogInfo ("Configuration file '" ++ config_file
                  ++ "' is valid against the schema.")]
  | Returns false =>
      PyM.logs (audit_config_file L h config_file schema_file) <> [] /\
      forallb error_level
        (PyM.logs (audit_config_file L h config_file schema_file)) = true
  | Raises _ => PyM.logs (audit_config_file L h config_file schema_file) = []
  end.
Proof.
  assert (Hh : forall e,
             match PyM.result (audit_handlers L e) with
             | Returns true => PyM.logs (audit_handlers L e)
                               = [LogInfo (msg_valid config_file)]
             | Returns false =>
                 PyM.logs (audit_handlers L e) <> [] /\
                 forallb error_level (PyM.logs (audit_handlers L e)) = true
             | Raises _ => PyM.logs (audit_handlers L e) = []
             end).
  { intros e. pose proof (audit_handlers_logs L e) as H.
    destruct (PyM.result (audit_handlers L e)) as [[]|e']; [|tauto|exact H].
    destruct H as [H _]. discriminate H. }
  rewrite AuditFacts.audit_cases.
  destruct (load_config L h config_file) as [[doc|e]|].
  - destruct (load_schema L h schema_file) as [schema|e]; [|apply Hh].
    destruct (validate L doc schema) as [[]|e]; [reflexivity | apply Hh].
  - apply Hh.
  - cbn. split; [discriminate | reflexivity].
Qed.

(** X7: the configuration file comes first.  When opening or parsing it
    raises, the output is that of the handler of this exception alone:
    the schema file is not opened and the validator is not run, so a
    missing or malformed schema goes unreported. *)
Theorem audit_config_error_first (L : Libs) (h : Host)
    (config_file schema_file : string) (e : exn) :
  load_config L h config_file = Some (Raises e) ->
  audit_config_file L h config_file schema_file = audit_handlers L e /\
  forall other_schema,
    audit_config_file L h config_file other_schema
    = audit_config_file L h config_file schema_file.
Proof.
  intros Hc. split; [|intros other]; rewrite !AuditFacts.audit_cases, Hc; reflexivity.
Qed.

Lemma audit_config_error_first_witness :
  audit_config_file libs broken_yaml_host "cfg.yaml" "schema.json"
  = audit_handlers libs (YAMLError "could not determine a constructor") /\
  forall other_schema,
    audit_config_file libs broken_yaml_host "cfg.yaml" other_schema
    = audit_config_file libs broken_yaml_host "cfg.yaml" "schema.json".
Proof.
  apply (audit_config_error_first libs broken_yaml_host "cfg.yaml" "schema.json").
  reflexivity.
Defined.

(** X8: [.yaml] and [.yml] are one format: two files with these endings
    that open alike get the same verdict against the same schema. *)
Theorem audit_yaml_yml_same (L : Libs) (h : Host)
    (yaml_file yml_file schema_file : string) :
  Text.endswith yaml_file ".yaml" = true ->
  Text.endswith yml_file ".yml" = true ->
  open_read h yaml_file = open_read h yml_file ->
  PyM.result (audit_config_file L h yaml_file schema_file)
  = PyM.result (audit_config_file L h yml_file schema_file).
Proof.
  intros Ha Hb Ho. rewrite !AuditFacts.audit_cases. unfold load_config.
  rewrite Ha, (AuditFacts.yml_is_yaml _ Hb), Ho. cbn [orb].
  destruct (open_read h yml_file) as [text|e]; [|reflexivity].
  destruct (yaml_safe_load L text) as [doc|e]; [|reflexivity].
  destruct (load_schema L h schema_file) as [schema|e]; [|reflexivity].
  destruct (validate L doc schema) as [[]|e]; reflexivity.
Qed.

Lemma audit_yaml_yml_same_witness :
  PyM.result (audit_config_file libs two_yaml_host "cfg.yaml" "schema.json")
  = PyM.result (audit_config_file libs two_yaml_host "cfg.yml" "schema.json").
Proof.
  apply (audit_yaml_yml_same libs two_yaml_host "cfg.yaml" "cfg.yml" "schema.json");
    reflexivity.
Defined.

(** X15: the only way out of the audit by an exception is [str(e)] in a
    handler.  When [str(e)] returns for every exception, the audit returns
    a boolean, and it returns [True] only when the document and the schema
    were loaded and [validate] accepted them. *)
Theorem audit_returns_when_str_returns (L : Libs) (h : Host)
    (config_file schema_file : string) :
  (forall e, exists text, exn_str L e = Returns text) ->
  exists valid,
    PyM.result (audit_config_file L h config_file schema_file) = Returns valid /\
    (valid = true <->
     exists doc schema,
       load_config L h config_file = Some (Returns doc) /\
       load_schema L h schema_file = Returns schema /\
       validate L doc schema = Returns tt).
Proof.
  intros Hstr.
  assert (Hh : forall e, PyM.result (audit_handlers L e) = Returns false).
  { intros e. destruct (Hstr e) as [text Ht].
    exact (AuditFacts.audit_handlers_returns L e text Ht). }
  rewrite AuditFacts.audit_cases.
  destruct (load_config L h config_file) as [[doc|e]|];
    try (exists false; split; [try apply Hh; reflexivity|];
         split; [discriminate | intros (d & sc & H & _); discriminate]).
  destruct (load_schema L h schema_file) as [schema|e];
    try (exists false; split; [apply Hh|];
         split; [discriminate | intros (d & sc & _ & H & _); discriminate]).
  destruct (validate L doc schema) as [[]|e] eqn:Hv.
  - exists true. split; [reflexivity|]. split; [|reflexivity].
    intros _. exists doc, schema. auto.
  - exists false. split; [apply Hh|]. split; [discriminate|].
    intros (d & sc & Hd & Hs & H). congruence.
Qed.

Lemma audit_returns_when_str_returns_witness :
  exists valid,
    PyM.result (audit_config_file libs empty_mapping_host "cfg.json" "schema.json")
    = Returns valid /\
    (valid = true <->
     exists doc schema,
       load_config libs empty_mapping_host "cfg.json" = Some (Returns doc) /\
       load_schema libs empty_mapping_host "schema.json" = Returns schema /\
       validate libs doc schema = Returns tt).
Proof.
  apply (audit_returns_when_str_returns libs empty_mapping_host "cfg.json" "schema.json").
  intros e. eexists. reflexivity.
Defined.

End AuditMore.

(** ** The driver *)

Module CliFacts.

Import Cli Examples MoreExamples.

Lemma check_returns (h : Host) :
  exists l enabled status,
    Upgrades.check_unattended_upgrades h = (l, Returns (enabled, status)).
Proof.
  destruct (UpgradesFacts.run_steps_returns h Steps.all_steps) as (en & m & Hr & _).
  rewrite <- UpgradesFacts.check_run_steps in Hr.
  destruct (Upgrades.check_unattended_upgrades h) as [l o].
  exists l, en, m. unfold PyM.result in Hr. simpl in Hr. now rewrite Hr.
Qed.

Lemma upgrades_part_finishes (h : Host) (args : Namespace) :
  ending (upgrades_part h args) = Finished.
Proof.
  unfold upgrades_part. destruct (check_upgrades args); [|reflexivity].
  destruct (check_returns h) as (l & en & st & ->). reflexivity.
Qed.

Lemma main_ending (L : Libs) (h : Host) (out : Stdout) (args : Namespace) :
  ending (main L h out args) = ending (audit_part L h out args).
Proof.
  unfold main, seq. pose proof (upgrades_part_finishes h args) as H.
  destruct (upgrades_part h args) as [ev t]. unfold ending in H. simpl in H.
  now rewrite H.
Qed.

Lemma main_events (L : Libs) (h : Host) (out : Stdout) (args : Namespace) :
  events (main L h out args)
  = (events (upgrades_part h args) ++ events (audit_part L h out args))%list.
Proof.
  unfold main, seq. pose proof (upgrades_part_finishes h args) as H.
  destruct (upgrades_part h args) as [ev t]. unfold ending in H. simpl in H.
  now rewrite H.
Qed.

Lemma audit_files_ending (L : Libs) (h : Host) (out : Stdout) (c s : string) :
  ending (audit_files L h out c s)
  = if negb (os_path_exists h c) then
      match write out ("Error: Configuration file not found: " ++ c) with
      | None => SystemExit 1
      | Some e => Uncaught e
      end
    else if negb (os_path_exists h s) then
      match write out ("Error: Schema file not found: " ++ s) with
      | None => SystemExit 1
      | Some e => Uncaught e
      end
    else
      match PyM.result (Audit.audit_config_file L h c s) with
      | Returns true => Finished
      | Returns false => SystemExit 1
      | Raises e => Uncaught e
      end.
Proof.
  unfold audit_files, print_path.
  destruct (os_path_exists h c); cbn [negb];
    [|now destruct (write out _)].
  destruct (os_path_exists h s); cbn [negb];
    [|now destruct (write out _)].
  destruct (Audit.audit_config_file L h c s) as [l [[]|e]]; reflexivity.
Qed.

Lemma audit_part_ending (L : Libs) (h : Host) (out : Stdout) (args : Namespace) :
  ending (audit_part L h out args)
  = match config_file args, schema_file args with
    | Some c, Some s =>
        if String.eqb c EmptyString || String.eqb s EmptyString then Finished
        else ending (audit_files L h out c s)
    | _, _ => Finished
    end.
Proof.
  unfold audit_part, truthy.
  destruct (config_file args) as [c|]; [|reflexivity].
  destruct (schema_file args) as [s|]; [|now rewrite andb_false_r].
  destruct (String.eqb c EmptyString), (String.eqb s EmptyString); reflexivity.
Qed.

Local Ltac no_audit :=
  split; [discriminate|]; split;
  [ split; [discriminate|];
    let Hc := fresh in let Hs := fresh in
    intros (? & ? & Hc & Hs & ? & ? & _); congruence
  | discriminate ].

Local Ltac audit_leaf c s :=
  split;
  [ let H := fresh in intros ? H; first [discriminate H | now injection H as <-] |];
  split;
  [ split;
    [ let H := fresh in intros H; first [discriminate H | exists c, s; auto 12]
    | let Hc := fresh in let Hs := fresh in let Hd := fresh in
      intros (? & ? & Hc & Hs & _ & _ & Hd);
      injection Hc as <-; injection Hs as <-;
      first [reflexivity | intuition congruence] ]
  | let H := fresh in intros ? H;
    first [discriminate H | injection H as <-; exists c, s; auto 12] ].

(** X9: how [main] ends.  [sys.exit] is called with code 1 only.  The run
    exits with 1 exactly when both paths are given and not empty and
    either a missing file was reported (the configuration file first) or
    the audit returned [False].  An exception escapes only from printing
    the line about a missing file or from the audit itself. *)
Theorem main_exit_status (L : Libs) (h : Host) (out : Stdout) (args : Namespace) :
  (forall code, ending (main L h out args) = SystemExit code -> code = 1) /\
  (ending (main L h out args) = SystemExit 1 <->
   exists c s,
     config_file args = Some c /\ schema_file args = Some s /\
     c <> EmptyString /\ s <> EmptyString /\
     ((os_path_exists h c = false /\
       write out ("Error: Configuration file not found: " ++ c) = None) \/
      (os_path_exists h c = true /\ os_path_exists h s = false /\
       write out ("Error: Schema file not found: " ++ s) = None) \/
      (os_path_exists h c = true /\ os_path_exists h s = true /\
       PyM.result (Audit.audit_config_file L h c s) = Returns false))) /\
  (forall e, ending (main L h out args) = Uncaught e ->
   exists c s,
     config_file args = Some c /\ schema_file args = Some s /\
     ((os_path_exists h c = false /\
       write out ("Error: Configuration file not found: " ++ c) = Some e) \/
      (os_path_exists h c = true /\ os_path_exists h s = false /\
       write out ("Error: Schema file not found: " ++ s) = Some e) \/
      (os_path_exists h c = true /\ os_path_exists h s = true /\
       PyM.result (Audit.audit_config_file L h c s) = Raises e))).
Proof.
  rewrite main_ending, audit_part_ending.
  destruct (config_file args) as [c|]; [|no_audit].
  destruct (schema_file args) as [s|]; [|no_audit].
  destruct (String.eqb_spec c EmptyString) as [Hc|Hc]; [no_audit|].
  destruct (String.eqb_spec s EmptyString) as [Hs|Hs]; [no_audit|].
  cbn [orb]. rewrite audit_files_ending.
  destruct (os_path_exists h c) eqn:Hec; cbn [negb].
  - destruct (os_path_exists h s) eqn:Hes; cbn [negb].
    + destruct (PyM.result (Audit.audit_config_file L h c s)) as [[]|e] eqn:Ha;
        audit_leaf c s.
    + destruct (write out ("Error: Schema file not found: " ++ s)) as [e|] eqn:Hw;
        audit_leaf c s.
  - destruct (write out ("Error: Configuration file not found: " ++ c)) as [e|] eqn:Hw;
      audit_leaf c s.
Qed.

(** X10: the verdict of the upgrade check never reaches the exit status:
    a run with [--check-upgrades] ends as the same run without it. *)
Theorem main_exit_ignores_upgrades (L : Libs) (h : Host) (out : Stdout)
    (args : Namespace) :
  ending (main L h out args)
  = ending (main L h out {| check_upgrades := false;
                            config_file := config_file args;
                            schema_file := schema_file args |}).
Proof. rewrite !main_ending. reflexivity. Qed.

(** X11: the audit needs both paths.  With a path not given, or given as
    the empty string, [main] says nothing about the files and behaves as
    if neither was given. *)
Theorem main_skips_audit_without_both_paths (L : Libs) (h : Host) (out : Stdout)
    (args : Namespace) :
  truthy (config_file args) = false \/ truthy (schema_file args) = false ->
  main L h out args
  = main L h out {| check_upgrades := check_upgrades args;
                    config_file := None; schema_file := None |}.
Proof.
  intros H. unfold main.
  assert (Ha : audit_part L h out args = ([], Finished)).
  { unfold audit_part. destruct H as [-> | ->]; [reflexivity|].
    now rewrite andb_false_r. }
  rewrite Ha. reflexivity.
Qed.

Lemma main_skips_audit_without_both_paths_witness :
  main libs twin_host any_stdout
       {| check_upgrades := true; config_file := Some "cfg.json"; schema_file := None |}
  = main libs twin_host any_stdout only_upgrades.
Proof.
  apply (main_skips_audit_without_both_paths libs twin_host any_stdout
           {| check_upgrades := true;
              config_file := Some "cfg.json"; schema_file := None |}).
  right. reflexivity.
Defined.

(** X12: a missing configuration file ends the run at once: after the
    output of the upgrade check, the line that names the path is printed
    and the exit code is 1, or, when the stream cannot encode that line,
    nothing is printed and the exception of [print] escapes.  Neither the
    schema path nor the libraries are looked at. *)
Theorem main_missing_config_first (L : Libs) (h : Host) (out : Stdout)
    (args : Namespace) (c s : string) :
  config_file args = Some c ->
  schema_file args = Some s ->
  c <> EmptyString ->
  s <> EmptyString ->
  os_path_exists h c = false ->
  main L h out args
  = match write out ("Error: Configuration file not found: " ++ c) with
    | None =>
        ((events (main L h out {| check_upgrades := check_upgrades args;
                                  config_file := None; schema_file := None |})
          ++ [Print ("Error: Configuration file not found: " ++ c)])%list,
         SystemExit 1)
    | Some e =>
        (events (main L h out {| check_upgrades := check_upgrades args;
                                 config_file := None; schema_file := None |}),
         Uncaught e)
    end.
Proof.
  intros Hc Hs Hcne Hsne He.
  unfold main, seq, audit_part, audit_files, print_path, events.
  rewrite Hc, Hs. cbn [truthy].
  apply String.eqb_neq in Hcne, Hsne. rewrite Hcne, Hsne, He. cbn [negb andb].
  pose proof (upgrades_part_finishes h args) as Hf.
  change (upgrades_part h {| check_upgrades := check_upgrades args;
                             config_file := None; schema_file := None |})
    with (upgrades_part h args).
  destruct (upgrades_part h args) as [ev t]. unfold ending in Hf. simpl in Hf.
  subst t. destruct (write out _); cbn; now rewrite app_nil_r.
Qed.

Lemma main_missing_config_first_witness :
  main libs twin_host ascii_stdout (audit_args latin_path "nowhere.json")
  = match Cli.write ascii_stdout ("Error: Configuration file not found: " ++ latin_path) with
    | None =>
        ((events (main libs twin_host ascii_stdout
                    {| check_upgrades := false; config_file := None; schema_file := None |})
          ++ [Print ("Error: Configuration file not found: " ++ latin_path)])%list,
         SystemExit 1)
    | Some e =>
        (events (main libs twin_host ascii_stdout
                   {| check_upgrades := false; config_file := None; schema_file := None |}),
         Uncaught e)
    end.
Proof.
  apply (main_missing_config_first libs twin_host ascii_stdout
           (audit_args latin_path "nowhere.json") latin_path "nowhere.json");
    try reflexivity; discriminate.
Defined.

(** X13: a configuration file that exists but has none of the three
    extensions is reported invalid: the run ends with the logged
    unsupported-type error, the line [Configuration file is invalid.] and
    exit code 1, whatever the files hold. *)
Theorem main_rejects_unsupported_extension (L : Libs) (h : Host) (out : Stdout)
    (args : Namespace) (c s : string) :
  config_file args = Some c ->
  schema_file args = Some s ->
  c <> EmptyString ->
  s <> EmptyString ->
  os_path_exists h c = true ->
  os_path_exists h s = true ->
  Text.endswith c ".yaml" = false ->
  Text.endswith c ".yml" = false ->
  Text.endswith c ".json" = false ->
  main L h out args
  = ((events (main L h out {| check_upgrades := check_upgrades args;
                              config_file := None; schema_file := None |})
      ++ [Log (LogError "Unsupported configuration file type. Only YAML and JSON are supported.");
          Print "Configuration file is invalid."])%list,
     SystemExit 1).
Proof.
  intros Hc Hs Hcne Hsne Hec Hes H1 H2 H3.
  unfold main, seq, audit_part, audit_files, events.
  rewrite Hc, Hs. cbn [truthy].
  apply String.eqb_neq in Hcne, Hsne. rewrite Hcne, Hsne, Hec, Hes. cbn [negb andb].
  unfold Audit.audit_config_file, Audit.audit_body. rewrite H1, H2, H3.
  pose proof (upgrades_part_finishes h args) as Hf.
  change (upgrades_part h {| check_upgrades := check_upgrades args;
                             config_file := None; schema_file := None |})
    with (upgrades_part h args).
  destruct (upgrades_part h args) as [ev t]. unfold ending in Hf. simpl in Hf.
  subst t. cbn. now rewrite app_nil_r.
Qed.

Lemma main_rejects_unsupported_extension_witness :
  main libs txt_host any_stdout (audit_args "cfg.txt" "schema.json")
  = ((events (main libs txt_host any_stdout
                {| check_upgrades := false; config_file := None; schema_file := None |})
      ++ [Log (LogError "Unsupported configuration file type. Only YAML and JSON are supported.");
          Print "Configuration file is invalid."])%list,
     SystemExit 1).
Proof.
  apply (main_rejects_unsupported_extension libs txt_host any_stdout
           (audit_args "cfg.txt" "schema.json") "cfg.txt" "schema.json");
    try reflexivity; discriminate.
Defined.

Lemma printed_logs (l : list log_call) (t : termination) :
  printed (map Log l, t) = [].
Proof. unfold printed, events. cbn [fst]. induction l; simpl; auto. Qed.

Lemma printed_logs_then (l : list log_call) (line : string) (t : termination) :
  printed ((map Log l ++ [Print line])%list, t) = [line].
Proof.
  unfold printed, events. cbn [fst]. rewrite flat_map_app.
  change (flat_map _ (map Log l)) with (printed (map Log l, t)).
  now rewrite printed_logs.
Qed.

Lemma audit_part_prints_one (L : Libs) (h : Host) (out : Stdout) (args : Namespace) :
  (length (printed (audit_part L h out args)) <= 1)%nat.
Proof.
  unfold audit_part.
  destruct (truthy (config_file args) && truthy (schema_file args)); [|simpl; lia].
  destruct (config_file args) as [c|]; [|simpl; lia].
  destruct (schema_file args) as [s|]; [|simpl; lia].
  unfold audit_files, print_path.
  destruct (os_path_exists h c); cbn [negb];
    [|destruct (write out _); simpl; lia].
  destruct (os_path_exists h s); cbn [negb];
    [|destruct (write out _); simpl; lia].
  destruct (Audit.audit_config_file L h c s) as [l [[]|e]];
    rewrite ?printed_logs_then, ?printed_logs; simpl; lia.
Qed.

(** X14: with [--check-upgrades] the first line printed is the message of
    the verdict, and at most one more line follows it. *)
Theorem main_prints_status_first (L : Libs) (h : Host) (out : Stdout)
    (args : Namespace) :
  check_upgrades args = true ->
  exists enabled status rest,
    PyM.result (Upgrades.check_unattended_upgrades h) = Returns (enabled, status) /\
    printed (main L h out args) = status :: rest /\
    (length rest <= 1)%nat.
Proof.
  intros Hcu. destruct (check_returns h) as (l & enabled & status & Hch).
  exists enabled, status, (printed (audit_part L h out args)).
  split; [now rewrite Hch|]. split; [|apply audit_part_prints_one].
  unfold printed at 1. rewrite main_events, flat_map_app.
  change (flat_map _ (events (audit_part L h out args)))
    with (printed (audit_part L h out args)).
  change (flat_map _ (events (upgrades_part h args)))
    with (printed (upgrades_part h args)).
  unfold upgrades_part. rewrite Hcu, Hch. cbv beta iota.
  rewrite printed_logs_then. reflexivity.
Qed.

Lemma main_prints_status_first_witness :
  exists enabled status rest,
    PyM.result (Upgrades.check_unattended_upgrades no_dpkg_host)
    = Returns (enabled, status) /\
    printed (main libs no_dpkg_host any_stdout only_upgrades) = status :: rest /\
    (length rest <= 1)%nat.
Proof.
  apply (main_prints_status_first libs no_dpkg_host any_stdout only_upgrades).
  reflexivity.
Defined.

End CliFacts.
